(** * deploy-llama3.ipynb: the notebook as an orchestration script

    A shallow embedding of the code cells of [notebooks/deploy-llama3.ipynb]
    and the properties of its control-flow contract.

    - Python [str] values are sequences of Unicode code points ([list N]).
    - JSON-like Python values are the inductive [pyval]; a [dict] is a
      [gmap] from strings to values, a [float] is a binary64 number
      ([spec_float] with [prec = 53], [emax = 1024]).
    - The notebook namespace is a [gmap] from variable names to objects.
    - The SDK, the shell, the file system and the remote endpoint are
      collaborators: every call to them is recorded in a trace and answered
      by an environment [Env], about which nothing is assumed.
    - A cell is a computation in a state-and-exception monad; a raised
      exception aborts the cell and, under "Run All", the cells after it.

    What is taken for granted: [import] statements succeed, the output of
    shell commands is not part of [stdout], and a collaborator does not
    write to the notebook's variables. *)

From Stdlib Require Import ZArith NArith List String Ascii Lia SpecFloat QArith Qabs Qpower.
From stdpp Require Import gmap strings list fin_maps sorting.

Set Warnings "-register-all".
#[local] Open Scope Z_scope.

(** ** Strings *)

Abbreviation str := (list N).

(** A source literal, read as its code points. *)
Definition lit (s : string) : str :=
  (fun a => N_of_ascii a) <$> list_ascii_of_string s.

Arguments lit : simpl never.

(** [str.isspace] for one code point (CPython's [_PyUnicode_IsWhitespace]). *)
Definition isspace (c : N) : bool :=
  ((9 <=? c) && (c <=? 13) || (28 <=? c) && (c <=? 32)
   || (c =? 133) || (c =? 160) || (c =? 5760)
   || (8192 <=? c) && (c <=? 8202)
   || (c =? 8232) || (c =? 8233) || (c =? 8239) || (c =? 8287)
   || (c =? 12288))%N.

Fixpoint lstrip (s : str) : str :=
  match s with
  | c :: s' => if isspace c then lstrip s' else s
  | [] => []
  end.

Definition rstrip (s : str) : str := reverse (lstrip (reverse s)).

(** [s.strip()] with no argument. *)
Definition strip (s : str) : str := rstrip (lstrip s).

(** Decimal digits of a natural number, most significant first. *)
Fixpoint uint_codes (d : Decimal.uint) : str :=
  match d with
  | Decimal.Nil => []
  | Decimal.D0 d => 48%N :: uint_codes d
  | Decimal.D1 d => 49%N :: uint_codes d
  | Decimal.D2 d => 50%N :: uint_codes d
  | Decimal.D3 d => 51%N :: uint_codes d
  | Decimal.D4 d => 52%N :: uint_codes d
  | Decimal.D5 d => 53%N :: uint_codes d
  | Decimal.D6 d => 54%N :: uint_codes d
  | Decimal.D7 d => 55%N :: uint_codes d
  | Decimal.D8 d => 56%N :: uint_codes d
  | Decimal.D9 d => 57%N :: uint_codes d
  end.

Definition dec_N (n : N) : str := uint_codes (N.to_uint n).

Definition dec_Z (z : Z) : str :=
  match z with
  | Zneg p => lit "-" ++ dec_N (Npos p)
  | _ => dec_N (Z.to_N z)
  end.

(** ** Python values *)

Inductive pyval : Type :=
| VNone
| VBool (b : bool)
| VInt (z : Z)
| VFloat (f : spec_float)
| VStr (s : str)
| VList (l : list pyval)
| VDict (d : gmap str pyval).

(** ** binary64 arithmetic and the [.2f] format *)

Definition prec : Z := 53.
Definition emax : Z := 1024.

(** [float(z)] for an [int]: the nearest binary64, ties to even. *)
Definition float_of_Z (z : Z) : spec_float := binary_normalize prec emax z 0 false.

(** A decimal literal [n/d] read as a [float]: the correctly rounded
    quotient of two exactly represented integers. *)
Definition float_lit (n d : Z) : spec_float :=
  SFdiv prec emax (float_of_Z n) (float_of_Z d).

(** Nearest integer to [n / d], ties to even ([0 <= n], [0 < d]). *)
Definition div_half_even (n d : Z) : Z :=
  let q := n / d in
  let r := n mod d in
  match 2 * r ?= d with
  | Lt => q
  | Gt => q + 1
  | Eq => if Z.even q then q else q + 1
  end.

(** Hundredths of [m * 2^e], correctly rounded. *)
Definition centi (m : positive) (e : Z) : Z :=
  match e with
  | Zneg p => div_half_even (100 * Zpos m) (2 ^ Zpos p)
  | _ => 100 * Zpos m * 2 ^ e
  end.

Definition two_digits (n : Z) : str :=
  (if n <? 10 then lit "0" else []) ++ dec_Z n.

(** The text of [c] hundredths: integer part, point, two decimals. *)
Definition fixed2 (c : Z) : str :=
  dec_Z (c / 100) ++ lit "." ++ two_digits (c mod 100).

(** [format(x, '.2f')] for a [float]. *)
Definition format_2f (x : spec_float) : str :=
  match x with
  | S754_nan => lit "nan"
  | S754_infinity s => (if s then lit "-" else []) ++ lit "inf"
  | S754_zero s => (if s then lit "-" else []) ++ lit "0.00"
  | S754_finite s m e => (if s then lit "-" else []) ++ fixed2 (centi m e)
  end.

(** The rational value of a finite binary64 magnitude. *)
Definition SF2Q (m : positive) (e : Z) : Q := inject_Z (Zpos m) * Qpower 2 e.

(** ** Exceptions, objects and collaborators *)

Inductive exn : Type :=
| AssertionError (msg : str)
| NameError (name : str)
| KeyError (key : pyval)
| IndexError
| TypeError
| ValueError
| AttributeError
| OverflowError
| OSError
| OtherError (name : str).

(** The outcome of an expression: an exception or a value. *)
Definition res (A : Type) : Type := exn + A.

#[global] Instance res_ret : MRet res := fun A a => inr a.
#[global] Instance res_bind : MBind res := fun A B k r =>
  match r with
  | inr a => k a
  | inl e => inl e
  end.

(** What a notebook variable can hold: a plain value or a handle that a
    collaborator returned. *)
Inductive obj : Type :=
| OVal (v : pyval)
| OSession (boto_region_name : str)
| OClient
| OModel
| OPredictor (endpoint_name : str).

(** Calls that leave the notebook. *)
Inductive call : Type :=
| Shell (argv : list str)
| Session (default_bucket : option obj)
| DefaultBucket (sess : obj)
| GetExecutionRole
| Boto3Client (service : str)
| IamGetRole (iam : obj) (RoleName : str)
| HuggingFaceModel (role image_uri env : obj)
| Deploy (llm_model : obj)
    (initial_instance_count instance_type container_startup_health_check_timeout : obj)
| Predict (llm : obj) (request : pyval)
| DeleteModel (llm : obj)
| DeleteEndpoint (llm : obj)
| Scandir (dirname : str)
| Open (path : str).

(** The collaborators.  Every answer may depend on the calls made so far. *)
Record Env : Type := {
  (** the SDK, the identity service and the endpoint *)
  respond : list call -> call -> res obj;
  (** [os.scandir]: the entry names in directory order, [None] on [OSError] *)
  scandir : list call -> str -> option (list str);
  (** [open(path, 'r')] followed by reading the whole file *)
  read_text : list call -> str -> res str;
  (** [json.loads] *)
  json_loads : str -> res pyval;
  (** [str()] of floats, lists, dicts and handles *)
  repr_opaque : obj -> str
}.

Record State : Type := {
  globals : gmap str obj;
  calls : list call;
  stdout : list str
}.

Definition M (A : Type) : Type := Env -> State -> res A * State.

#[global] Instance M_ret : MRet M := fun A a _ st => (inr a, st).
#[global] Instance M_bind : MBind M := fun A B k m E st =>
  match m E st with
  | (inr a, st') => k a E st'
  | (inl e, st') => (inl e, st')
  end.

Definition raise {A} (e : exn) : M A := fun _ st => (inl e, st).

Definition lift {A} (r : res A) : M A := fun _ st => (r, st).

Definition get_var (x : string) : M obj := fun _ st =>
  match globals st !! lit x with
  | Some o => (inr o, st)
  | None => (inl (NameError (lit x)), st)
  end.

Definition set_var (x : string) (o : obj) : M unit := fun _ st =>
  (inr tt, {| globals := <[lit x := o]> (globals st);
              calls := calls st; stdout := stdout st |}).

Definition log (c : call) : M unit := fun _ st =>
  (inr tt, {| globals := globals st; calls := calls st ++ [c]; stdout := stdout st |}).

(** A call to the SDK: recorded, then answered. *)
Definition extern (c : call) : M obj := fun E st =>
  (respond E (calls st) c,
   {| globals := globals st; calls := calls st ++ [c]; stdout := stdout st |}).

(** [!cmd]: IPython runs the command and raises nothing. *)
Definition shell (argv : list str) : M unit := log (Shell argv).

Definition print (line : str) : M unit := fun _ st =>
  (inr tt, {| globals := globals st; calls := calls st; stdout := stdout st ++ [line] |}).

(** [try: body except ValueError: handler] *)
Definition try_except_ValueError {A} (body handler : M A) : M A := fun E st =>
  match body E st with
  | (inl ValueError, st') => handler E st'
  | r => r
  end.

Definition ask {A} (f : Env -> A) : M A := fun E st => (inr (f E), st).

Definition trace : M (list call) := fun _ st => (inr (calls st), st).

(** ** Python operations the cells use *)

(** [o[key]] for a string key. *)
Definition subscript_key (o : obj) (key : string) : res pyval :=
  match o with
  | OVal (VDict d) =>
      match d !! lit key with
      | Some v => inr v
      | None => inl (KeyError (VStr (lit key)))
      end
  | _ => inl TypeError
  end.

(** [o[0]] *)
Definition subscript_0 (v : pyval) : res pyval :=
  match v with
  | VList (x :: _) => inr x
  | VList [] => inl IndexError
  | VStr (c :: _) => inr (VStr [c])
  | VStr [] => inl IndexError
  | VDict _ => inl (KeyError (VInt 0))
  | _ => inl TypeError
  end.

(** [v.strip()] *)
Definition call_strip (v : pyval) : res str :=
  match v with
  | VStr s => inr (strip s)
  | _ => inl AttributeError
  end.

(** [v != s] for a string literal [s] *)
Definition ne_str (v : pyval) (s : str) : bool :=
  match v with
  | VStr t => negb (bool_decide (t = s))
  | _ => true
  end.

(** [o is None] *)
Definition is_None (o : obj) : bool :=
  match o with
  | OVal VNone => true
  | _ => false
  end.

(** [str(o)], as an f-string field with no format spec renders it. *)
Definition py_str (E : Env) (o : obj) : str :=
  match o with
  | OVal (VStr s) => s
  | OVal (VInt z) => dec_Z z
  | OVal VNone => lit "None"
  | OVal (VBool true) => lit "True"
  | OVal (VBool false) => lit "False"
  | _ => repr_opaque E o
  end.

(** [v * 1000] *)
Definition mul_1000 (v : pyval) : res pyval :=
  match v with
  | VInt z => inr (VInt (z * 1000))
  | VBool b => inr (VInt (if b then 1000 else 0))
  | VFloat x => inr (VFloat (SFmul prec emax x (float_of_Z 1000)))
  | VStr s => inr (VStr (mjoin (replicate 1000 s)))
  | VList l => inr (VList (mjoin (replicate 1000 l)))
  | _ => inl TypeError
  end.

(** [format(int, '.2f')]: the integer is converted to [float] first. *)
Definition format_2f_int (z : Z) : res str :=
  match float_of_Z z with
  | S754_infinity _ => inl OverflowError
  | x => inr (format_2f x)
  end.

(** [f"{v:.2f}"] *)
Definition fmt_2f (v : pyval) : res str :=
  match v with
  | VFloat x => inr (format_2f x)
  | VInt z => format_2f_int z
  | VBool b => format_2f_int (if b then 1 else 0)
  | VStr _ => inl ValueError
  | _ => inl TypeError
  end.

(** [fnmatch] for patterns made of [*], [?] and literal characters. *)
Fixpoint fnmatch (pat name : str) : bool :=
  match pat with
  | [] => match name with [] => true | _ => false end
  | p :: pat' =>
      if (p =? 42)%N then
        (fix star (rest : str) : bool :=
           fnmatch pat' rest ||
           match rest with
           | [] => false
           | _ :: rest' => star rest'
           end) name
      else
        match name with
        | [] => false
        | c :: name' => ((p =? 63) || (p =? c))%N && fnmatch pat' name'
        end
  end.

(** [glob._ishidden] *)
Definition ishidden (name : str) : bool :=
  match name with
  | 46%N :: _ => true
  | _ => false
  end.

(** [glob.glob(dirname + "/" + pattern)] for a literal [dirname]:
    [_glob1] over the directory listing, then [os.path.join]. *)
Definition glob_glob (dirname pattern : string) : M (list str) :=
  t ← trace;
  log (Scandir (lit dirname));;
  names ← ask (fun E => default [] (scandir E t (lit dirname)));
  let names := if ishidden (lit pattern) then names
               else filter (fun x => ishidden x = false) names in
  mret ((fun x => lit dirname ++ lit "/" ++ x)
          <$> filter (fun x => fnmatch (lit pattern) x = true) names).

(** A dict display [{k1: v1, ...}]: later items overwrite earlier ones. *)
Definition dict_display (items : list (string * pyval)) : gmap str pyval :=
  foldl (fun d kv => <[lit kv.1 := kv.2]> d) ∅ items.

(** [open(path, 'r')] and reading the file: recorded, then answered. *)
Definition open_read (path : str) : M str := fun E st =>
  (read_text E (calls st) path,
   {| globals := globals st; calls := calls st ++ [Open path]; stdout := stdout st |}).

(** [sess.boto_region_name] *)
Definition boto_region_name_of (o : obj) : res str :=
  match o with
  | OSession r => inr r
  | _ => inl AttributeError
  end.

(** ** The cells, in notebook order *)

(** [!pip install "sagemaker>=2.216.0" --upgrade --quiet] *)
Definition cell_install : M unit :=
  shell [lit "pip"; lit "install"; lit "sagemaker>=2.216.0"; lit "--upgrade"; lit "--quiet"].

(** The [except ValueError] branch of the role lookup. *)
Definition role_fallback : M unit :=
  iam ← extern (Boto3Client (lit "iam"));
  set_var "iam" iam;;
  r ← extern (IamGetRole iam (lit "sagemaker_execution_role"));
  Role ← lift (subscript_key r "Role");
  Arn ← lift (subscript_key (OVal Role) "Arn");
  set_var "role" (OVal Arn).

(** [try: role = sagemaker.get_execution_role() except ValueError: ...] *)
Definition resolve_role : M unit :=
  try_except_ValueError
    (r ← extern GetExecutionRole; set_var "role" r)
    role_fallback.

Definition cell_session : M unit :=
  sess ← extern (Session None);
  set_var "sess" sess;;
  set_var "sagemaker_session_bucket" (OVal VNone);;
  bucket ← get_var "sagemaker_session_bucket";
  (if is_None bucket && negb (is_None sess)
   then b ← extern (DefaultBucket sess); set_var "sagemaker_session_bucket" b
   else mret tt);;
  resolve_role;;
  bucket ← get_var "sagemaker_session_bucket";
  sess ← extern (Session (Some bucket));
  set_var "sess" sess;;
  role ← get_var "role";
  s ← ask (fun E => py_str E role);
  print (lit "sagemaker role arn: " ++ s);;
  region ← lift (boto_region_name_of sess);
  print (lit "sagemaker session region: " ++ region).

(** The f-string of the image cell. *)
Definition llm_image (boto_region_name : str) : str :=
  lit "763104351884.dkr.ecr." ++ boto_region_name
  ++ lit ".amazonaws.com/huggingface-pytorch-tgi-inference:2.1-tgi2.0-gpu-py310-cu121-ubuntu22.04".

Definition cell_image : M unit :=
  sess ← get_var "sess";
  region ← lift (boto_region_name_of sess);
  set_var "llm_image" (OVal (VStr (llm_image region)));;
  print (lit "llm image uri: " ++ llm_image region).

Definition placeholder : str := lit "<REPLACE WITH YOUR TOKEN>".

(** The [config] dict display; [token] is the value written in the last
    entry, which the reader of the notebook is asked to replace. *)
Definition config (token : pyval) : gmap str pyval :=
  dict_display
    [ ("HF_MODEL_ID", VStr (lit "meta-llama/Meta-Llama-3-70B-Instruct"));
      ("SM_NUM_GPUS", VStr (lit "8"));
      ("MAX_INPUT_LENGTH", VStr (lit "2048"));
      ("MAX_TOTAL_TOKENS", VStr (lit "4096"));
      ("MAX_BATCH_TOTAL_TOKENS", VStr (lit "8192"));
      ("MESSAGES_API_ENABLED", VStr (lit "true"));
      ("HUGGING_FACE_HUB_TOKEN", token) ]%string.

(** [assert config['HUGGING_FACE_HUB_TOKEN'] != "<REPLACE WITH YOUR TOKEN>", "..."] *)
Definition assert_token : M unit :=
  c ← get_var "config";
  tok ← lift (subscript_key c "HUGGING_FACE_HUB_TOKEN");
  if ne_str tok placeholder then mret tt
  else raise (AssertionError (lit "Please set your Hugging Face Hub token")).

(** [llm_model = HuggingFaceModel(role=role, image_uri=llm_image, env=config)] *)
Definition create_model : M unit :=
  role ← get_var "role";
  image ← get_var "llm_image";
  env ← get_var "config";
  m ← extern (HuggingFaceModel role image env);
  set_var "llm_model" m.

(** The model cell, for the dict [cfg] that its [config = {...}] builds. *)
Definition cell_model (cfg : gmap str pyval) : M unit :=
  set_var "instance_type" (OVal (VStr (lit "ml.p4d.24xlarge")));;
  set_var "health_check_timeout" (OVal (VInt 900));;
  set_var "config" (OVal (VDict cfg));;
  assert_token;;
  create_model.

Definition cell_deploy : M unit :=
  m ← get_var "llm_model";
  it ← get_var "instance_type";
  t ← get_var "health_check_timeout";
  llm ← extern (Deploy m (OVal (VInt 1)) it t);
  set_var "llm" llm.

Definition message (role content : string) : pyval :=
  VDict (dict_display [("role", VStr (lit role)); ("content", VStr (lit content))]%string).

Definition messages : pyval :=
  VList [ message "system" "You are a helpful assistant.";
          message "user" "What is deep learning?" ].

Definition parameters : pyval :=
  VDict (dict_display
    [ ("model", VStr (lit "meta-llama/Meta-Llama-3-70B-Instruct"));
      ("top_p", VFloat (float_lit 6 10));
      ("temperature", VFloat (float_lit 9 10));
      ("max_tokens", VInt 512);
      ("stop", VList [VStr (lit "<|eot_id|>")]) ]%string).

Definition cell_prompt : M unit :=
  set_var "messages" (OVal messages);;
  set_var "parameters" (OVal parameters).

(** [{"messages": messages, **parameters}]: the unpacked mapping is merged
    after the [messages] entry.  A handle is not a JSON value, and a
    non-mapping cannot be unpacked. *)
Definition request (msgs params : obj) : res pyval :=
  match msgs, params with
  | OVal m, OVal (VDict p) => inr (VDict (p ∪ <[lit "messages" := m]> ∅))
  | _, _ => inl TypeError
  end.

(** [chat["choices"][0]["message"]["content"].strip()] *)
Definition extract (chat : obj) : res str :=
  choices ← subscript_key chat "choices";
  first ← subscript_0 choices;
  msg ← subscript_key (OVal first) "message";
  content ← subscript_key (OVal msg) "content";
  call_strip content.

Definition cell_chat : M unit :=
  llm ← get_var "llm";
  msgs ← get_var "messages";
  params ← get_var "parameters";
  req ← lift (request msgs params);
  chat ← extern (Predict llm req);
  set_var "chat" chat;;
  text ← lift (extract chat);
  print text.

Definition cell_llmperf : M unit :=
  shell [lit "git"; lit "clone"; lit "https://github.com/philschmid/llmperf.git"];;
  shell [lit "pip"; lit "install"; lit "-e"; lit "llmperf/"].

(** [{llm.endpoint_name}] in a shell line: IPython leaves the braces in
    place when the expression cannot be evaluated. *)
Definition endpoint_arg (g : gmap str obj) : str :=
  match g !! lit "llm" with
  | Some (OPredictor name) => name
  | _ => lit "{llm.endpoint_name}"
  end.

(** The benchmark command line; [concurrency] is the value written after
    [--num-concurrent-requests] (25 in the notebook). *)
Definition benchmark_argv (endpoint : str) (concurrency : N) : list str :=
  [ lit "MESSAGES_API=true"; lit "python"; lit "llmperf/token_benchmark_ray.py";
    lit "--model"; endpoint;
    lit "--llm-api"; lit "sagemaker";
    lit "--max-num-completed-requests"; lit "500";
    lit "--timeout"; lit "600";
    lit "--num-concurrent-requests"; dec_N concurrency;
    lit "--results-dir"; lit "results" ].

Definition cell_benchmark (concurrency : N) : M unit := fun E st =>
  shell (benchmark_argv (endpoint_arg (globals st)) concurrency) E st.

(** One line of the summary: [print(f"{label}{data[key]}")]. *)
Definition print_field (label : string) (data : obj) (key : string) : M unit :=
  v ← lift (subscript_key data key);
  s ← ask (fun E => py_str E (OVal v));
  print (lit label ++ s).

(** [print(f"{label}{data[key]*1000:.2f}{unit}")] *)
Definition print_ms (label : string) (data : obj) (key : string) (unit_ : string) : M unit :=
  v ← lift (subscript_key data key);
  ms ← lift (mul_1000 v);
  s ← lift (fmt_2f ms);
  print (lit label ++ s ++ lit unit_).

(** [print(f"{label}{data[key]:.2f}{unit}")] *)
Definition print_2f (label : string) (data : obj) (key : string) (unit_ : string) : M unit :=
  v ← lift (subscript_key data key);
  s ← lift (fmt_2f v);
  print (lit label ++ s ++ lit unit_).

(** The six [print] statements of the summary cell. *)
Definition print_summary (data : obj) : M unit :=
  print (lit "Concurrent requests: 25");;
  print_field "Avg. Input token length: " data "mean_input_tokens";;
  print_field "Avg. Output token length: " data "mean_output_tokens";;
  print_ms "Avg. First-Time-To-Token: " data "results_ttft_s_mean" "ms";;
  print_2f "Avg. Thorughput: " data "results_mean_output_throughput_token_per_s" " tokens/sec";;
  print_ms "Avg. Latency: " data "results_inter_token_latency_s_mean" "ms/token".

Definition cell_summary : M unit :=
  paths ← glob_glob "results" "*summary.json";
  path ← lift (match paths with p :: _ => inr p | [] => inl IndexError end);
  text ← open_read path;
  loads ← ask json_loads;
  data ← lift (loads text);
  set_var "data" (OVal data);;
  print_summary (OVal data).

Definition cell_cleanup : M unit :=
  llm ← get_var "llm";
  extern (DeleteModel llm);;
  extern (DeleteEndpoint llm);;
  mret tt.

(** "Run All": the code cells in order, stopping at the first exception. *)
Definition cells_before_model : M unit :=
  cell_install;; cell_session;; cell_image.

Definition cells_after_model (concurrency : N) : M unit :=
  cell_deploy;; cell_prompt;; cell_chat;; cell_llmperf;;
  cell_benchmark concurrency;; cell_summary;; cell_cleanup.

Definition notebook (cfg : gmap str pyval) (concurrency : N) : M unit :=
  cells_before_model;; cell_model cfg;; cells_after_model concurrency.

(** The notebook as committed. *)
Definition notebook_as_committed : M unit :=
  notebook (config (VStr placeholder)) 25.

Definition fresh : State := {| globals := ∅; calls := []; stdout := [] |}.

(** * Vocabulary of the properties

    Predicates on states and traces, the states reached by single steps,
    and sample inputs. *)

(** The reply [{"choices": [{"message": {"content": c}}]}]. *)
Definition chat_response (c : str) : pyval :=
  VDict (dict_display
    [ ("choices",
       VList [ VDict (dict_display
         [ ("message", VDict (dict_display [ ("content", VStr c) ])) ]) ]) ]%string).

(** [m] leaves the state inside [P], whether it returns or raises. *)
Definition keeps {A} (P : State -> Prop) (m : M A) : Prop :=
  forall E st, P st -> P (m E st).2.

(** Every recorded call satisfies [Q]. *)
Definition calls_in (Q : call -> bool) (st : State) : Prop :=
  Forall (fun c => Q c = true) (calls st).

(** The variable [x] holds [o]. *)
Definition holds (x : string) (o : obj) (st : State) : Prop :=
  globals st !! lit x = Some o.

(** The message of the assertion. *)
Definition token_msg : str := lit "Please set your Hugging Face Hub token".

(** The key of the access token in [config]. *)
Definition token_key : str := lit "HUGGING_FACE_HUB_TOKEN".

(** The calls the cells before the model cell can make. *)
Definition before_model (c : call) : bool :=
  match c with
  | Shell _ | Session _ | DefaultBucket _ | GetExecutionRole
  | Boto3Client _ | IamGetRole _ _ => true
  | _ => false
  end.

(** No collaborator answers with an assertion error. *)
Definition silent (E : Env) : Prop :=
  (forall t c msg, respond E t c <> inl (AssertionError msg))
  /\ (forall t path msg, read_text E t path <> inl (AssertionError msg))
  /\ (forall text msg, json_loads E text <> inl (AssertionError msg)).

(** [r] is not an assertion error. *)
Definition quiet {A} (r : res A) : Prop :=
  forall msg, r <> inl (AssertionError msg).

(** [m] raises no assertion error of its own. *)
Definition never_asserts {A} (m : M A) : Prop :=
  forall E st, silent E -> quiet (m E st).1.

(** The seven documented keys of [config]. *)
Definition config_keys : list str :=
  lit <$> [ "HF_MODEL_ID"; "SM_NUM_GPUS"; "MAX_INPUT_LENGTH"; "MAX_TOTAL_TOKENS";
            "MAX_BATCH_TOTAL_TOKENS"; "MESSAGES_API_ENABLED";
            "HUGGING_FACE_HUB_TOKEN" ]%string.

(** [isinstance(v, str)] *)
Definition is_str (v : pyval) : Prop := exists s, v = VStr s.

(** The state after one more recorded call. *)
Definition logged (st : State) (c : call) : State :=
  {| globals := globals st; calls := calls st ++ [c]; stdout := stdout st |}.

(** The state after the assignment [x = o]. *)
Definition bind_var (x : string) (o : obj) (st : State) : State :=
  {| globals := <[lit x := o]> (globals st); calls := calls st; stdout := stdout st |}.

(** The role name of the fallback lookup. *)
Definition fallback_role_name : str := lit "sagemaker_execution_role".

(** An environment without credentials: the primary lookup fails with an
    error of the HTTP client, while the identity service would answer. *)
Definition env_no_credentials : Env :=
  {| respond := fun _ c =>
       match c with
       | GetExecutionRole => inl (OtherError (lit "NoCredentialsError"))
       | Boto3Client _ => inr OClient
       | IamGetRole _ _ =>
           inr (OVal (VDict (dict_display
             [ ("Role", VDict (dict_display
                 [ ("Arn", VStr (lit "arn:aws:iam::123456789012:role/sagemaker_execution_role")) ])) ]%string)))
       | _ => inr (OVal VNone)
       end;
     scandir := fun _ _ => None;
     read_text := fun _ _ => inl OSError;
     json_loads := fun _ => inl ValueError;
     repr_opaque := fun _ => [] |}.

(** An environment whose identity is not a role: the primary lookup raises
    [ValueError] and the identity service knows the fixed role name. *)
Definition env_not_a_role : Env :=
  {| respond := fun t c =>
       match c with
       | GetExecutionRole => inl ValueError
       | _ => respond env_no_credentials t c
       end;
     scandir := fun _ _ => None;
     read_text := fun _ _ => inl OSError;
     json_loads := fun _ => inl ValueError;
     repr_opaque := fun _ => [] |}.

(** What follows the [*] of the pattern. *)
Definition summary_suffix : str := lit "summary.json".

(** A directory entry that [results/*summary.json] selects. *)
Definition is_summary (name : str) : bool :=
  negb (ishidden name) && bool_decide (summary_suffix `suffix_of` name).

(** A pattern without [*] and [?]. *)
Definition no_wildcard (pat : str) : Prop :=
  Forall (fun p => p <> 42%N /\ p <> 63%N) pat.

(** The directory part of the pattern. *)
Definition results_dir : str := lit "results".

(** What [os.scandir('results')] lists when the cell runs. *)
Definition listing (E : Env) (st : State) : list str :=
  default [] (scandir E (calls st) results_dir).

(** The state after one more printed line. *)
Definition printed (st : State) (line : str) : State :=
  {| globals := globals st; calls := calls st; stdout := stdout st ++ [line] |}.

(** The first line of the summary. *)
Definition concurrency_line : str := lit "Concurrent requests: 25".

(** The output so far starts with [pre]. *)
Definition prints_from (pre : list str) (st : State) : Prop :=
  pre `prefix_of` stdout st.

(** [x] is a binary64 within half a unit in the last place of [n / d]. *)
Definition within_half_ulp (n d : Z) (x : spec_float) : Prop :=
  match x with
  | S754_finite false m (Zneg p) =>
      valid_binary prec emax x = true
      /\ 2 * Z.abs (Zpos m * d - n * 2 ^ Zpos p) <= d
  | _ => False
  end.

(** The sign as [.2f] writes it. *)
Definition sign_text (s : bool) : str := if s then lit "-" else [].

(** Labels and keys of the two millisecond lines. *)
Definition ttft_label : string := "Avg. First-Time-To-Token: ".
Definition ttft_key : string := "results_ttft_s_mean".
Definition latency_label : string := "Avg. Latency: ".
Definition latency_key : string := "results_inter_token_latency_s_mean".

(** A summary record with the fields of the documented example. *)
Definition summary_record (ttft : spec_float) : gmap str pyval :=
  dict_display
    [ ("mean_input_tokens", VInt 550);
      ("mean_output_tokens", VInt 150);
      ("results_ttft_s_mean", VFloat ttft) ]%string.

(** A summary record with all five fields, as the benchmark tool writes it. *)
Definition sample_summary : pyval :=
  VDict (dict_display
    [ ("mean_input_tokens", VInt 550);
      ("mean_output_tokens", VInt 150);
      ("results_ttft_s_mean", VFloat (float_lit 130128 100000));
      ("results_mean_output_throughput_token_per_s", VFloat (float_lit 111625 100));
      ("results_inter_token_latency_s_mean", VFloat (float_lit 1045 100000)) ]%string).

(** A deployment in which every collaborator answers. *)
Definition env_sample : Env :=
  {| respond := fun _ c =>
       match c with
       | Session _ => inr (OSession (lit "us-east-1"))
       | DefaultBucket _ => inr (OVal (VStr (lit "sagemaker-us-east-1-123456789012")))
       | GetExecutionRole =>
           inr (OVal (VStr (lit "arn:aws:iam::123456789012:role/notebook")))
       | Boto3Client _ => inr OClient
       | IamGetRole _ _ =>
           inr (OVal (VDict (dict_display
             [ ("Role", VDict (dict_display
                 [ ("Arn", VStr (lit "arn:aws:iam::123456789012:role/sagemaker_execution_role")) ])) ]%string)))
       | HuggingFaceModel _ _ _ => inr OModel
       | Deploy _ _ _ _ => inr (OPredictor (lit "huggingface-pytorch-tgi-inference"))
       | Predict _ _ => inr (OVal (chat_response (lit " Deep learning is a subset of machine learning. ")))
       | _ => inr (OVal VNone)
       end;
     scandir := fun _ _ =>
       Some [ lit ".cache_summary.json"; lit "individual_responses.json";
              lit "endpoint_550_150_summary.json"; lit "older_summary.json" ];
     read_text := fun _ _ => inr (lit "{...}");
     json_loads := fun _ => inr sample_summary;
     repr_opaque := fun _ => lit "<object>" |}.

(** The roles of the Messages API. *)
Definition roles : list str := lit <$> ["system"; "user"; "assistant"]%string.

(** A role/content pair. *)
Definition is_message (v : pyval) : Prop :=
  exists role content,
    v = VDict (<[lit "content" := VStr content]> (<[lit "role" := VStr role]> ∅))
    /\ role ∈ roles.

(** The keys of the request object. *)
Definition request_keys : list str :=
  lit <$> ["messages"; "model"; "top_p"; "temperature"; "max_tokens"; "stop"]%string.

(** * Properties *)

(** ** Whitespace stripping *)

Section Strip.

Lemma lstrip_split (s : str) :
  exists l, s = l ++ lstrip s /\ Forall (fun c => isspace c = true) l.
Proof.
  induction s as [|c s [l [Hs Hl]]]; simpl.
  - exists []. split; [reflexivity | constructor].
  - destruct (isspace c) eqn:Hc.
    + exists (c :: l). split.
      * simpl. f_equal. exact Hs.
      * constructor; assumption.
    + exists []. split; [reflexivity | constructor].
Qed.

Lemma lstrip_head (s : str) (a : N) :
  head (lstrip s) = Some a -> isspace a = false.
Proof.
  induction s as [|c s IH]; simpl; [discriminate|].
  destruct (isspace c) eqn:Hc; [exact IH|].
  simpl. intros [= <-]. exact Hc.
Qed.

Lemma rstrip_split (s : str) :
  exists r, s = rstrip s ++ r /\ Forall (fun c => isspace c = true) r.
Proof.
  unfold rstrip.
  destruct (lstrip_split (reverse s)) as [l [Hs Hl]].
  exists (reverse l). split.
  - rewrite <- reverse_app, <- Hs. symmetry. apply reverse_involutive.
  - apply Forall_reverse. exact Hl.
Qed.

Lemma rstrip_last (s : str) (a : N) :
  last (rstrip s) = Some a -> isspace a = false.
Proof.
  unfold rstrip. rewrite last_reverse. apply lstrip_head.
Qed.

(** The first character survives [rstrip] when it is not whitespace. *)
Lemma rstrip_head (s : str) (a : N) :
  head s = Some a -> isspace a = false -> head (rstrip s) = Some a.
Proof.
  intros Hh Ha.
  destruct (rstrip_split s) as [r [Hs Hr]].
  destruct (rstrip s) as [|b t] eqn:Ht.
  - simpl in Hs. subst r. destruct s as [|c s]; [discriminate|].
    simpl in Hh. injection Hh as ->.
    apply Forall_cons in Hr as [Hr _]. congruence.
  - rewrite Hs in Hh. simpl in Hh. simpl. exact Hh.
Qed.

Lemma strip_split (s : str) :
  exists l r, s = l ++ strip s ++ r
    /\ Forall (fun c => isspace c = true) l
    /\ Forall (fun c => isspace c = true) r.
Proof.
  destruct (lstrip_split s) as [l [Hs Hl]].
  destruct (rstrip_split (lstrip s)) as [r [Ht Hr]].
  exists l, r. unfold strip. rewrite <- Ht. auto.
Qed.

Lemma strip_head (s : str) (a : N) :
  head (strip s) = Some a -> isspace a = false.
Proof.
  unfold strip. intros H.
  destruct (head (lstrip s)) as [b|] eqn:Hb.
  - pose proof (lstrip_head _ _ Hb) as Hsp.
    rewrite (rstrip_head _ _ Hb Hsp) in H. congruence.
  - destruct (lstrip s); [|discriminate]. discriminate.
Qed.

Lemma strip_last (s : str) (a : N) :
  last (strip s) = Some a -> isspace a = false.
Proof. apply rstrip_last. Qed.

(** A string with no whitespace at either end is returned as it is. *)
Lemma strip_id (s : str) :
  (forall a, head s = Some a -> isspace a = false) ->
  (forall a, last s = Some a -> isspace a = false) ->
  strip s = s.
Proof.
  intros Hh Hl.
  assert (Hls : forall t : str,
    (forall a, head t = Some a -> isspace a = false) -> lstrip t = t).
  { intros [|c t] Ht; [reflexivity|]. simpl. rewrite (Ht c); reflexivity. }
  unfold strip, rstrip. rewrite (Hls s Hh), Hls.
  - apply reverse_involutive.
  - intros a. rewrite head_reverse. apply Hl.
Qed.

End Strip.

(** ** The image URI *)

(** C3: for the region "us-east-1" the interpolated image URI is exactly the
    documented one, and for every region it is the registry account, the
    region, the repository name and the tag put into the fixed template;
    the image cell binds [llm_image] to it and prints it. *)
Theorem llm_image_us_east_1 :
  llm_image (lit "us-east-1")
  = lit "763104351884.dkr.ecr.us-east-1.amazonaws.com/huggingface-pytorch-tgi-inference:2.1-tgi2.0-gpu-py310-cu121-ubuntu22.04"
  /\ (forall region : str,
       llm_image region
       = lit "763104351884" ++ lit ".dkr.ecr." ++ region ++ lit ".amazonaws.com/"
         ++ lit "huggingface-pytorch-tgi-inference" ++ lit ":"
         ++ lit "2.1-tgi2.0-gpu-py310-cu121-ubuntu22.04")
  /\ (forall E st region,
        holds "sess" (OSession region) st ->
        cell_image E st
        = (inr tt,
           printed (bind_var "llm_image" (OVal (VStr (llm_image region))) st)
             (lit "llm image uri: " ++ llm_image region))).
Proof.
  split; [reflexivity|]. split.
  - intros region. unfold llm_image.
    change (lit "763104351884.dkr.ecr.")
      with (lit "763104351884" ++ lit ".dkr.ecr.").
    rewrite <- (assoc_L (++)). reflexivity.
  - intros E st region Hs. unfold holds in Hs.
    unfold cell_image, mbind, M_bind, get_var, lift, set_var, print. simpl.
    rewrite Hs. reflexivity.
Qed.

(** ** Reading the reply *)

Lemma extract_shape (chat : obj) (s : str) :
  extract chat = inr s <->
  exists d m rest cd c,
    chat = OVal (VDict d)
    /\ d !! lit "choices" = Some (VList (VDict m :: rest))
    /\ m !! lit "message" = Some (VDict cd)
    /\ cd !! lit "content" = Some (VStr c)
    /\ s = strip c.
Proof.
  split.
  - unfold extract, mbind, res_bind, subscript_key.
    destruct chat as [[| | | | |l|d]| | | |]; try discriminate.
    destruct (d !! lit "choices") as [[| | | |t|l|d']|] eqn:Hd; simpl; try discriminate.
    + destruct t as [|a t]; discriminate.
    + destruct l as [|[| | | | |l'|m] rest]; simpl; try discriminate.
      destruct (m !! lit "message") as [[| | | | |l'|cd]|] eqn:Hm; simpl; try discriminate.
      destruct (cd !! lit "content") as [[| | | |c| |]|] eqn:Hc; simpl; try discriminate.
      intros [= <-]. exists d, m, rest, cd, c. auto.
  - intros (d & m & rest & cd & c & -> & Hd & Hm & Hc & ->).
    unfold extract, mbind, res_bind, subscript_key.
    rewrite Hd. simpl. rewrite Hm. simpl. rewrite Hc. reflexivity.
Qed.

(** C2: for the reply [{"choices": [{"message": {"content": c}}]}] the
    extraction returns [c] without its surrounding whitespace ("X" for "X");
    it succeeds exactly on replies whose first choice has a message with a
    string content, whatever else they hold, and raises on every other
    shape; the chat cell prints the extracted text. *)
Theorem extract_first_choice_content :
  (forall c, extract (OVal (chat_response c)) = inr (strip c))
  /\ extract (OVal (chat_response (lit "X"))) = inr (lit "X")
  /\ (forall chat s,
        extract chat = inr s <->
        exists d m rest cd c,
          chat = OVal (VDict d)
          /\ d !! lit "choices" = Some (VList (VDict m :: rest))
          /\ m !! lit "message" = Some (VDict cd)
          /\ cd !! lit "content" = Some (VStr c)
          /\ s = strip c)
  /\ (forall c, exists l r,
        c = l ++ strip c ++ r
        /\ Forall (fun a => isspace a = true) l
        /\ Forall (fun a => isspace a = true) r
        /\ (forall a, head (strip c) = Some a -> isspace a = false)
        /\ (forall a, last (strip c) = Some a -> isspace a = false))
  /\ (forall E st llm msgs params req c,
        holds "llm" llm st -> holds "messages" msgs st ->
        holds "parameters" params st ->
        request msgs params = inr req ->
        respond E (calls st) (Predict llm req) = inr (OVal (chat_response c)) ->
        stdout (cell_chat E st).2 = stdout st ++ [strip c]).
Proof.
  split; [|split; [|split; [|split]]].
  - intros c. apply extract_shape.
    eexists _, _, _, _, c. repeat split; reflexivity.
  - reflexivity.
  - exact extract_shape.
  - intros c. destruct (strip_split c) as (l & r & Hc & Hl & Hr).
    exists l, r. split; [exact Hc|]. split; [exact Hl|]. split; [exact Hr|].
    split; intros a; [apply strip_head | apply strip_last].
  - intros E st llm msgs params req c Hl Hm Hp Hreq Hresp. unfold holds in *.
    unfold cell_chat, mbind, M_bind, get_var, lift, extern, set_var, print.
    rewrite Hl. cbv beta iota. rewrite Hm. cbv beta iota. rewrite Hp.
    cbv beta iota. rewrite Hreq. cbv beta iota. cbn [calls]. rewrite Hresp.
    reflexivity.
Qed.

(** ** State invariants of cells *)

Section Keeps.

Variable P : State -> Prop.

Lemma keeps_ret {A} (a : A) : keeps P (mret a).
Proof. intros E st H. exact H. Qed.

Lemma keeps_raise {A} (e : exn) : keeps P (raise e : M A).
Proof. intros E st H. exact H. Qed.

Lemma keeps_lift {A} (r : res A) : keeps P (lift r).
Proof. intros E st H. exact H. Qed.

Lemma keeps_ask {A} (f : Env -> A) : keeps P (ask f).
Proof. intros E st H. exact H. Qed.

Lemma keeps_trace : keeps P trace.
Proof. intros E st H. exact H. Qed.

Lemma keeps_get_var (x : string) : keeps P (get_var x).
Proof. intros E st H. unfold get_var. destruct (globals st !! lit x); exact H. Qed.

Lemma keeps_bind {A B} (m : M A) (k : A -> M B) :
  keeps P m -> (forall a, keeps P (k a)) -> keeps P (m ≫= k).
Proof.
  intros Hm Hk E st H. unfold mbind, M_bind.
  specialize (Hm E st H).
  destruct (m E st) as [[e|a] st']; simpl in *; [exact Hm|].
  apply Hk. exact Hm.
Qed.

Lemma keeps_try {A} (body handler : M A) :
  keeps P body -> keeps P handler -> keeps P (try_except_ValueError body handler).
Proof.
  intros Hb Hh E st H. unfold try_except_ValueError.
  specialize (Hb E st H).
  destruct (body E st) as [[e|a] st']; simpl in *; [|exact Hb].
  destruct e; simpl; try exact Hb. apply Hh. exact Hb.
Qed.

Lemma keeps_if {A} (b : bool) (m1 m2 : M A) :
  keeps P m1 -> keeps P m2 -> keeps P (if b then m1 else m2).
Proof. destruct b; auto. Qed.

End Keeps.

Section KeepsCalls.

Variable Q : call -> bool.

Lemma calls_in_snoc (st : State) (c : call) (g : gmap str obj) (out : list str) :
  calls_in Q st -> Q c = true ->
  calls_in Q {| globals := g; calls := calls st ++ [c]; stdout := out |}.
Proof.
  intros H Hc. unfold calls_in. simpl. apply Forall_app. split; [exact H|].
  constructor; [exact Hc | constructor].
Qed.

Lemma calls_set_var (x : string) (o : obj) : keeps (calls_in Q) (set_var x o).
Proof. intros E st H. exact H. Qed.

Lemma calls_print (line : str) : keeps (calls_in Q) (print line).
Proof. intros E st H. exact H. Qed.

Lemma calls_log (c : call) : Q c = true -> keeps (calls_in Q) (log c).
Proof. intros Hc E st H. apply calls_in_snoc; assumption. Qed.

Lemma calls_extern (c : call) : Q c = true -> keeps (calls_in Q) (extern c).
Proof. intros Hc E st H. apply calls_in_snoc; assumption. Qed.

Lemma calls_open_read (path : str) :
  Q (Open path) = true -> keeps (calls_in Q) (open_read path).
Proof. intros Hc E st H. apply calls_in_snoc; assumption. Qed.

End KeepsCalls.

Section KeepsVar.

Variables (x : string) (o : obj).

Lemma holds_set_var (y : string) (o' : obj) :
  lit y <> lit x -> keeps (holds x o) (set_var y o').
Proof.
  intros Hy E st H. unfold holds. simpl.
  rewrite lookup_insert_ne by exact Hy. exact H.
Qed.

Lemma holds_print (line : str) : keeps (holds x o) (print line).
Proof. intros E st H. exact H. Qed.

Lemma holds_log (c : call) : keeps (holds x o) (log c).
Proof. intros E st H. exact H. Qed.

Lemma holds_extern (c : call) : keeps (holds x o) (extern c).
Proof. intros E st H. exact H. Qed.

Lemma holds_open_read (path : str) : keeps (holds x o) (open_read path).
Proof. intros E st H. exact H. Qed.

End KeepsVar.

Create HintDb keeps discriminated.
#[export] Hint Resolve keeps_ret keeps_raise keeps_lift keeps_ask keeps_trace
  keeps_get_var calls_set_var calls_print calls_log calls_extern calls_open_read
  holds_print holds_log holds_extern holds_open_read : keeps.

(** Walks through the binds of a cell and closes the leaves. *)
Ltac keeps_cell :=
  repeat first
    [ apply keeps_bind; [|intros ?]
    | apply keeps_try
    | apply keeps_if
    | apply holds_set_var; discriminate
    | solve [eauto with keeps] ].

(** ** The token assertion *)

Lemma ne_str_refl (s : str) : ne_str (VStr s) s = false.
Proof. simpl. rewrite bool_decide_eq_true_2; reflexivity. Qed.

Ltac run_model_cell :=
  unfold cell_model, assert_token, create_model, mbind, M_bind, set_var,
    get_var, lift, raise, subscript_key, extern, token_key; simpl.

Lemma cell_model_placeholder (E : Env) (st : State) (cfg : gmap str pyval) :
  cfg !! token_key = Some (VStr placeholder) ->
  exists st', cell_model cfg E st = (inl (AssertionError token_msg), st')
    /\ calls st' = calls st /\ stdout st' = stdout st.
Proof.
  intros H. run_model_cell.
  rewrite lookup_insert_eq. unfold token_key in H. rewrite H, ne_str_refl.
  eexists. split; [reflexivity|]. split; reflexivity.
Qed.

Lemma cell_model_accepts (E : Env) (st : State) (cfg : gmap str pyval)
    (tok : pyval) (r i : obj) :
  cfg !! token_key = Some tok ->
  ne_str tok placeholder = true ->
  holds "role" r st ->
  holds "llm_image" i st ->
  calls (cell_model cfg E st).2
  = calls st ++ [HuggingFaceModel r i (OVal (VDict cfg))].
Proof.
  unfold holds, token_key. intros H Hne Hr Hi. run_model_cell.
  rewrite !lookup_insert_eq, H, Hne. simpl.
  repeat (first [ rewrite lookup_insert_eq
                | rewrite lookup_insert_ne by discriminate
                | rewrite Hr | rewrite Hi ]; simpl).
  destruct (respond _ _ _); reflexivity.
Qed.

Lemma cells_before_model_calls : keeps (calls_in before_model) cells_before_model.
Proof.
  unfold cells_before_model, cell_install, cell_session, cell_image,
    resolve_role, role_fallback, shell.
  keeps_cell.
Qed.

Lemma notebook_placeholder (E : Env) (st : State) (cfg : gmap str pyval) (n : N) :
  cfg !! token_key = Some (VStr placeholder) ->
  (notebook cfg n E st).1 <> inr tt
  /\ (calls_in before_model st -> calls_in before_model (notebook cfg n E st).2)
  /\ ((cells_before_model E st).1 = inr tt ->
      (notebook cfg n E st).1 = inl (AssertionError token_msg)).
Proof.
  intros H. unfold notebook, mbind, M_bind.
  pose proof (cells_before_model_calls E st) as Hk.
  destruct (cells_before_model E st) as [[e|[]] st1]; simpl in *.
  - split; [discriminate|]. split; [exact Hk | discriminate].
  - destruct (cell_model_placeholder E st1 cfg H) as (st2 & -> & Hc & _).
    simpl. split; [discriminate|]. split; [|reflexivity].
    intros Hst. unfold calls_in. rewrite Hc. apply Hk, Hst.
Qed.

(** ** Assertion errors come from the token check only *)

Section Quiet.

Lemma quiet_inr {A} (a : A) : quiet (inr a : res A).
Proof. intros msg. discriminate. Qed.

Lemma quiet_bind {A B} (r : res A) (k : A -> res B) :
  quiet r -> (forall a, quiet (k a)) -> quiet (r ≫= k).
Proof.
  intros Hr Hk. destruct r as [e|a]; simpl; [|apply Hk].
  intros msg [= ->]. exact (Hr msg eq_refl).
Qed.

Lemma quiet_subscript_key (o : obj) (key : string) : quiet (subscript_key o key).
Proof.
  intros msg. unfold subscript_key.
  destruct o as [[| | | | | |d]| | | |]; try discriminate.
  destruct (d !! lit key); discriminate.
Qed.

Lemma quiet_subscript_0 (v : pyval) : quiet (subscript_0 v).
Proof. intros msg. destruct v as [| | | |[|]|[|]|]; discriminate. Qed.

Lemma quiet_call_strip (v : pyval) : quiet (call_strip v).
Proof. intros msg. destruct v; discriminate. Qed.

Lemma quiet_mul_1000 (v : pyval) : quiet (mul_1000 v).
Proof. intros msg. destruct v; discriminate. Qed.

Lemma quiet_fmt_2f (v : pyval) : quiet (fmt_2f v).
Proof.
  intros msg. destruct v; try discriminate; unfold fmt_2f, format_2f_int;
    destruct (float_of_Z _); discriminate.
Qed.

Lemma quiet_boto_region_name_of (o : obj) : quiet (boto_region_name_of o).
Proof. intros msg. destruct o; discriminate. Qed.

Lemma quiet_request (m p : obj) : quiet (request m p).
Proof.
  intros msg. unfold request.
  destruct m as [v| | | |]; try discriminate.
  destruct p as [[| | | | | |d]| | | |]; discriminate.
Qed.

Lemma quiet_extract (chat : obj) : quiet (extract chat).
Proof.
  unfold extract.
  repeat (apply quiet_bind; [|intros ?]);
    auto using quiet_subscript_key, quiet_subscript_0, quiet_call_strip.
Qed.

Lemma quiet_first {A} (l : list A) :
  quiet (match l with p :: _ => inr p | [] => inl IndexError end).
Proof. intros msg. destruct l; discriminate. Qed.

End Quiet.

Section NeverAsserts.

Lemma na_ret {A} (a : A) : never_asserts (mret a).
Proof. intros E st _ msg. discriminate. Qed.

Lemma na_lift {A} (r : res A) : quiet r -> never_asserts (lift r).
Proof. intros H E st _. exact H. Qed.

Lemma na_ask {A} (f : Env -> A) : never_asserts (ask f).
Proof. intros E st _ msg. discriminate. Qed.

Lemma na_trace : never_asserts trace.
Proof. intros E st _ msg. discriminate. Qed.

Lemma na_get_var (x : string) : never_asserts (get_var x).
Proof.
  intros E st _ msg. unfold get_var. destruct (globals st !! lit x); discriminate.
Qed.

Lemma na_set_var (x : string) (o : obj) : never_asserts (set_var x o).
Proof. intros E st _ msg. discriminate. Qed.

Lemma na_print (line : str) : never_asserts (print line).
Proof. intros E st _ msg. discriminate. Qed.

Lemma na_log (c : call) : never_asserts (log c).
Proof. intros E st _ msg. discriminate. Qed.

Lemma na_extern (c : call) : never_asserts (extern c).
Proof. intros E st [H _] msg. apply H. Qed.

Lemma na_open_read (path : str) : never_asserts (open_read path).
Proof. intros E st (_ & H & _) msg. apply H. Qed.

Lemma na_json_loads {B} (text : str) (k : pyval -> M B) :
  (forall data, never_asserts (k data)) ->
  never_asserts (ask json_loads ≫= fun loads => lift (loads text) ≫= k).
Proof.
  intros Hk E st HE msg. unfold mbind, M_bind, ask, lift. simpl.
  destruct HE as (H1 & H2 & H3).
  destruct (json_loads E text) as [e|data] eqn:Hj.
  - intros [= ->]. exact (H3 text msg Hj).
  - apply Hk. repeat split; assumption.
Qed.

Lemma na_bind {A B} (m : M A) (k : A -> M B) :
  never_asserts m -> (forall a, never_asserts (k a)) -> never_asserts (m ≫= k).
Proof.
  intros Hm Hk E st HE msg. unfold mbind, M_bind.
  specialize (Hm E st HE msg).
  destruct (m E st) as [[e|a] st']; simpl in *.
  - congruence.
  - apply Hk. exact HE.
Qed.

Lemma na_try {A} (body handler : M A) :
  never_asserts body -> never_asserts handler ->
  never_asserts (try_except_ValueError body handler).
Proof.
  intros Hb Hh E st HE msg. unfold try_except_ValueError.
  specialize (Hb E st HE msg).
  destruct (body E st) as [[e|a] st']; simpl in *; [|discriminate].
  destruct e; simpl; try exact Hb. apply Hh. exact HE.
Qed.

Lemma na_if {A} (b : bool) (m1 m2 : M A) :
  never_asserts m1 -> never_asserts m2 -> never_asserts (if b then m1 else m2).
Proof. destruct b; auto. Qed.

End NeverAsserts.

Create HintDb quiet discriminated.
#[export] Hint Resolve quiet_inr quiet_subscript_key quiet_subscript_0
  quiet_call_strip quiet_mul_1000 quiet_fmt_2f quiet_boto_region_name_of
  quiet_request quiet_extract quiet_first
  na_ret na_lift na_ask na_trace na_get_var na_set_var na_print na_log
  na_extern na_open_read : quiet.

Ltac quiet_cell :=
  repeat first
    [ apply na_json_loads; intros ?
    | apply na_bind; [|intros ?]
    | apply na_try
    | apply na_if
    | solve [eauto with quiet] ].

Lemma cells_before_model_quiet : never_asserts cells_before_model.
Proof.
  unfold cells_before_model, cell_install, cell_session, cell_image,
    resolve_role, role_fallback, shell.
  quiet_cell.
Qed.

Lemma cells_quiet_create : never_asserts create_model.
Proof. unfold create_model. quiet_cell. Qed.

Lemma cell_benchmark_quiet (n : N) : never_asserts (cell_benchmark n).
Proof. intros E st _ msg. discriminate. Qed.

Lemma cells_after_model_quiet (n : N) : never_asserts (cells_after_model n).
Proof.
  unfold cells_after_model, cell_deploy, cell_prompt, cell_chat, cell_llmperf,
    cell_summary, cell_cleanup, print_summary, print_field, print_ms, print_2f,
    glob_glob, shell.
  repeat first [ apply cell_benchmark_quiet | progress quiet_cell ].
Qed.

Lemma cell_model_asserts (E : Env) (st : State) (cfg : gmap str pyval) (msg : str) :
  silent E ->
  (cell_model cfg E st).1 = inl (AssertionError msg) ->
  cfg !! token_key = Some (VStr placeholder) /\ msg = token_msg.
Proof.
  intros HE. unfold cell_model.
  unfold mbind at 1 2 3 4, M_bind at 1 2 3 4, set_var at 1 2 3. cbv beta iota.
  unfold assert_token, mbind at 1 2, M_bind at 1 2, get_var, lift, subscript_key.
  cbn [globals]. rewrite lookup_insert_eq. fold token_key.
  destruct (cfg !! token_key) as [tok|]; [|discriminate].
  destruct (ne_str tok placeholder) eqn:Hne.
  - intros H. exfalso. revert H. apply (cells_quiet_create E _ HE msg).
  - destruct tok as [| | | |t| |]; try discriminate.
    simpl in Hne. apply negb_false_iff, bool_decide_eq_true in Hne. subst t.
    intros [= <-]. split; reflexivity.
Qed.

Lemma notebook_asserts (E : Env) (st : State) (cfg : gmap str pyval) (n : N) (msg : str) :
  silent E ->
  (notebook cfg n E st).1 = inl (AssertionError msg) ->
  cfg !! token_key = Some (VStr placeholder) /\ msg = token_msg.
Proof.
  intros HE. unfold notebook, mbind, M_bind.
  pose proof (cells_before_model_quiet E st HE msg) as H1.
  destruct (cells_before_model E st) as [[e|[]] st1]; simpl in *; [congruence|].
  pose proof (cell_model_asserts E st1 cfg msg HE) as H2.
  destruct (cell_model cfg E st1) as [[e|[]] st2]; simpl in *; [exact H2|].
  intros H. exfalso. exact (cells_after_model_quiet n E st2 HE msg H).
Qed.

(** C1: for every configuration mapping whose token entry is the
    placeholder, the model cell raises the assertion error without making
    any call, and a run of the whole notebook with it makes no call beyond
    those of the cells before the model cell (no model construction, no
    deployment).  Nothing else is validated: with any other token value the
    same mapping, whatever its other entries, is handed to the model
    constructor as it is, and when no collaborator answers with an
    assertion error, a run of the notebook ends in one only through this
    check. *)
Theorem placeholder_token_rejected (E : Env) (st : State)
    (cfg : gmap str pyval) (concurrency : N) :
  cfg !! token_key = Some (VStr placeholder) ->
  (exists st', cell_model cfg E st = (inl (AssertionError token_msg), st')
     /\ calls st' = calls st)
  /\ (notebook cfg concurrency E fresh).1 <> inr tt
  /\ calls_in before_model (notebook cfg concurrency E fresh).2
  /\ (forall tok r i,
        ne_str tok placeholder = true ->
        holds "role" r st -> holds "llm_image" i st ->
        calls (cell_model (<[token_key := tok]> cfg) E st).2
        = calls st ++ [HuggingFaceModel r i (OVal (VDict (<[token_key := tok]> cfg)))])
  /\ (forall cfg' n msg,
        silent E ->
        (notebook cfg' n E fresh).1 = inl (AssertionError msg) ->
        cfg' !! token_key = Some (VStr placeholder) /\ msg = token_msg).
Proof.
  intros H. split; [|split; [|split; [|split]]].
  - destruct (cell_model_placeholder E st cfg H) as (st' & Hrun & Hc & _).
    exists st'. split; assumption.
  - apply notebook_placeholder, H.
  - apply notebook_placeholder; [exact H | constructor].
  - intros tok r i Hne Hr Hi.
    apply cell_model_accepts with (tok := tok); try assumption.
    apply lookup_insert_eq.
  - intros cfg' n msg HE. apply notebook_asserts, HE.
Qed.

(** C9: in the notebook as committed the token entry is the placeholder, so
    the model cell raises the assertion error from every state without
    making a call, and a full run never completes and makes no call beyond
    those of the cells before the model cell: the model is never constructed
    and nothing is deployed. *)
Theorem committed_notebook_stops_at_assert (E : Env) :
  config (VStr placeholder) !! token_key = Some (VStr placeholder)
  /\ (forall st, exists st',
        cell_model (config (VStr placeholder)) E st
        = (inl (AssertionError token_msg), st')
        /\ calls st' = calls st)
  /\ (notebook_as_committed E fresh).1 <> inr tt
  /\ calls_in before_model (notebook_as_committed E fresh).2
  /\ ((cells_before_model E fresh).1 = inr tt ->
      (notebook_as_committed E fresh).1 = inl (AssertionError token_msg)).
Proof.
  assert (H : config (VStr placeholder) !! token_key = Some (VStr placeholder))
    by reflexivity.
  split; [exact H|]. split; [|split; [|split]].
  - intros st.
    destruct (cell_model_placeholder E st _ H) as (st' & Hrun & Hc & _).
    exists st'. split; assumption.
  - apply notebook_placeholder, H.
  - apply notebook_placeholder; [exact H | constructor].
  - apply notebook_placeholder, H.
Qed.

(** ** The configuration mapping *)

Lemma config_dom (token : pyval) :
  dom (config token) = list_to_set config_keys.
Proof.
  unfold config, dict_display. simpl.
  rewrite !dom_insert_L, dom_empty_L. unfold config_keys. simpl.
  set_solver.
Qed.

Lemma config_values (token : str) :
  map_Forall (fun _ v => is_str v) (config (VStr token)).
Proof.
  unfold config, dict_display. simpl.
  repeat (apply map_Forall_insert_2; [eexists; reflexivity|]).
  apply map_Forall_empty.
Qed.

Lemma cell_benchmark_holds (x : string) (o : obj) (n : N) :
  keeps (holds x o) (cell_benchmark n).
Proof. intros E st H. exact H. Qed.

Lemma cells_after_model_holds (o : obj) (n : N) :
  keeps (holds "config" o) (cells_after_model n).
Proof.
  unfold cells_after_model, cell_deploy, cell_prompt, cell_chat, cell_llmperf,
    cell_summary, cell_cleanup, print_summary, print_field, print_ms, print_2f,
    glob_glob, shell.
  repeat first [ apply cell_benchmark_holds | progress keeps_cell ].
Qed.

Lemma cell_model_holds (E : Env) (st : State) (cfg : gmap str pyval) :
  holds "config" (OVal (VDict cfg)) (cell_model cfg E st).2.
Proof.
  unfold cell_model.
  set (rest := assert_token ≫= _).
  assert (Hrest : keeps (holds "config" (OVal (VDict cfg))) rest).
  { unfold rest, assert_token, create_model. keeps_cell. }
  unfold mbind at 1 2 3, M_bind, set_var at 1 2 3. simpl.
  apply Hrest. unfold holds. simpl. apply lookup_insert_eq.
Qed.

(** C5: with the token replaced by any other string, the mapping built by
    the configuration cell has exactly the seven documented keys, each with
    a string value; it passes the assertion and is handed to the model
    constructor as built; and whatever the later statements and cells do,
    the variable [config] still holds that mapping afterwards. *)
Theorem config_documented_keys (E : Env) (st : State) (token : str) (concurrency : N) :
  token <> placeholder ->
  dom (config (VStr token)) = list_to_set config_keys
  /\ size (config (VStr token)) = 7%nat
  /\ map_Forall (fun _ v => is_str v) (config (VStr token))
  /\ config (VStr token) !! token_key = Some (VStr token)
  /\ (forall r i,
        holds "role" r st -> holds "llm_image" i st ->
        calls (cell_model (config (VStr token)) E st).2
        = calls st ++ [HuggingFaceModel r i (OVal (VDict (config (VStr token))))])
  /\ holds "config" (OVal (VDict (config (VStr token))))
       ((cell_model (config (VStr token)) ;; cells_after_model concurrency) E st).2.
Proof.
  intros Hne. split; [apply config_dom|]. split; [reflexivity|].
  split; [apply config_values|]. split; [reflexivity|]. split.
  - intros r i Hr Hi.
    apply cell_model_accepts with (tok := VStr token); try assumption.
    + reflexivity.
    + simpl. rewrite bool_decide_eq_false_2; [reflexivity | exact Hne].
  - unfold mbind, M_bind.
    pose proof (cell_model_holds E st (config (VStr token))) as H.
    destruct (cell_model _ E st) as [[e|[]] st1]; simpl in *; [exact H|].
    apply cells_after_model_holds, H.
Qed.

(** ** The execution role *)

Ltac run_resolve_role :=
  unfold resolve_role, role_fallback, try_except_ValueError, mbind, M_bind,
    extern, set_var, lift, logged, bind_var, fallback_role_name; simpl.

(** Counterexample to C6 as stated: a primary lookup that fails with
    anything but [ValueError] is not followed by the identity-service
    lookup; the error leaves the cell with [role] unbound. *)
Lemma resolve_role_no_fallback :
  respond env_no_credentials [] GetExecutionRole
  = inl (OtherError (lit "NoCredentialsError"))
  /\ resolve_role env_no_credentials fresh
     = (inl (OtherError (lit "NoCredentialsError")), logged fresh GetExecutionRole)
  /\ globals (resolve_role env_no_credentials fresh).2 !! lit "role" = None.
Proof. split; [|split]; reflexivity. Qed.

(** C6, amended: when the primary lookup raises [ValueError], the resolver
    creates an IAM client and looks the role up once by the fixed name
    'sagemaker_execution_role'; [role] becomes the ARN of the answer, and a
    failure of either step leaves the cell as it is, after a single attempt.
    Any other failure of the primary lookup leaves the cell at once. *)
Theorem resolve_role_fallback (E : Env) (st : State) (e : exn) :
  respond E (calls st) GetExecutionRole = inl e ->
  let st1 := logged st GetExecutionRole in
  let st2 := logged st1 (Boto3Client (lit "iam")) in
  (e <> ValueError -> resolve_role E st = (inl e, st1))
  /\ (e = ValueError ->
      (forall e', respond E (calls st1) (Boto3Client (lit "iam")) = inl e' ->
         resolve_role E st = (inl e', st2))
      /\ (forall iam, respond E (calls st1) (Boto3Client (lit "iam")) = inr iam ->
         let st3 := logged (bind_var "iam" iam st2) (IamGetRole iam fallback_role_name) in
         (forall e', respond E (calls st2) (IamGetRole iam fallback_role_name) = inl e' ->
            resolve_role E st = (inl e', st3))
         /\ (forall d rd arn,
               respond E (calls st2) (IamGetRole iam fallback_role_name)
               = inr (OVal (VDict d)) ->
               d !! lit "Role" = Some (VDict rd) ->
               rd !! lit "Arn" = Some arn ->
               resolve_role E st = (inr tt, bind_var "role" (OVal arn) st3)))).
Proof.
  intros H st1 st2. split.
  - intros Hne. run_resolve_role. rewrite H.
    destruct e; try reflexivity. congruence.
  - intros ->. split.
    + intros e' H1. run_resolve_role. rewrite H. simpl.
      simpl in H1. rewrite H1. reflexivity.
    + intros iam H1. simpl. unfold fallback_role_name. simpl in H1. split.
      * intros e' H2. simpl in H2. run_resolve_role. rewrite H. simpl.
        rewrite H1. simpl. rewrite H2. reflexivity.
      * intros d rd arn H2 Hd Hrd. simpl in H2. run_resolve_role.
        rewrite H. simpl. rewrite H1. simpl. rewrite H2. simpl.
        rewrite Hd. simpl. rewrite Hrd. reflexivity.
Qed.

(** The fallback on an identity that is not a role. *)
Lemma resolve_role_fallback_witness :
  respond env_not_a_role (calls fresh) GetExecutionRole = inl ValueError
  /\ resolve_role env_not_a_role fresh
     = (inr tt,
        bind_var "role"
          (OVal (VStr (lit "arn:aws:iam::123456789012:role/sagemaker_execution_role")))
          (logged
             (bind_var "iam" OClient
                (logged (logged fresh GetExecutionRole) (Boto3Client (lit "iam"))))
             (IamGetRole OClient fallback_role_name))).
Proof.
  split; [reflexivity|].
  pose proof (resolve_role_fallback env_not_a_role fresh ValueError eq_refl) as [_ H].
  destruct (H eq_refl) as [_ H'].
  destruct (H' OClient eq_refl) as [_ H''].
  eapply H''; reflexivity.
Defined.

(** ** Locating the benchmark summary *)

Lemma fnmatch_literal (pat name : str) :
  no_wildcard pat -> fnmatch pat name = true <-> name = pat.
Proof.
  intros Hp. revert name. induction Hp as [|p pat [H1 H2] Hp IH]; intros name.
  - destruct name; simpl; split; congruence.
  - simpl. apply N.eqb_neq in H1, H2. rewrite H1.
    destruct name as [|c name]; [split; discriminate|].
    rewrite H2. simpl. rewrite andb_true_iff, N.eqb_eq, IH.
    split; [intros [-> ->]; reflexivity | intros [= -> ->]; auto].
Qed.

Lemma fnmatch_star (pat name : str) :
  fnmatch (42%N :: pat) name = true <->
  exists k rest, name = k ++ rest /\ fnmatch pat rest = true.
Proof.
  simpl. induction name as [|c name IH].
  - rewrite orb_false_r. split.
    + intros H. exists [], []. auto.
    + intros (k & rest & Hk & H). symmetry in Hk.
      apply app_eq_nil in Hk as [-> ->]. exact H.
  - rewrite orb_true_iff, IH. split.
    + intros [H | (k & rest & -> & H)].
      * exists [], (c :: name). auto.
      * exists (c :: k), rest. auto.
    + intros (k & rest & Hk & H). destruct k as [|c' k]; simpl in Hk.
      * left. rewrite Hk. exact H.
      * injection Hk as -> ->. right. exists k, rest. auto.
Qed.

Lemma fnmatch_summary (name : str) :
  fnmatch (lit "*summary.json") name = true <-> summary_suffix `suffix_of` name.
Proof.
  change (lit "*summary.json") with (42%N :: summary_suffix).
  rewrite fnmatch_star. unfold suffix. split.
  - intros (k & rest & -> & H). exists k. f_equal.
    apply fnmatch_literal in H; [exact H|].
    unfold summary_suffix. repeat constructor; discriminate.
  - intros [k ->]. exists k, summary_suffix. split; [reflexivity|].
    apply fnmatch_literal; [|reflexivity].
    repeat constructor; discriminate.
Qed.

Lemma is_summary_spec (name : str) :
  is_summary name = true <->
  fnmatch (lit "*summary.json") name = true /\ ishidden name = false.
Proof.
  unfold is_summary. rewrite andb_true_iff, negb_true_iff, bool_decide_eq_true.
  rewrite fnmatch_summary. tauto.
Qed.

Lemma filter_none {A} (P : A -> Prop) `{!forall x, Decision (P x)} (l : list A) :
  (forall x, x ∈ l -> ~ P x) -> filter P l = [].
Proof.
  induction l as [|a l IH]; intros Hl; [reflexivity|].
  rewrite filter_cons. destruct (decide (P a)) as [Ha|_].
  - destruct (Hl a); [left | exact Ha].
  - apply IH. intros x Hx. apply Hl. right. exact Hx.
Qed.

Lemma glob_glob_summary (E : Env) (st : State) :
  glob_glob "results" "*summary.json" E st
  = (inr ((fun x => results_dir ++ lit "/" ++ x)
            <$> filter (fun x => is_summary x = true) (listing E st)),
     logged st (Scandir results_dir)).
Proof.
  unfold glob_glob, mbind, M_bind, log, trace, ask, logged, listing. simpl.
  change (ishidden (lit "*summary.json")) with false. cbv iota.
  unfold mret, M_ret. f_equal. f_equal. f_equal.
  rewrite list_filter_filter. apply list_filter_iff.
  intros x. symmetry. apply is_summary_spec.
Qed.

(** The summary cell, step by step. *)
Lemma cell_summary_run (E : Env) (st : State) :
  cell_summary E st =
  let st1 := logged st (Scandir results_dir) in
  match filter (fun x => is_summary x = true) (listing E st) with
  | [] => (inl IndexError, st1)
  | name :: _ =>
      let path := results_dir ++ lit "/" ++ name in
      let st2 := logged st1 (Open path) in
      match read_text E (calls st1) path with
      | inl e => (inl e, st2)
      | inr text =>
          match json_loads E text with
          | inl e => (inl e, st2)
          | inr data => print_summary (OVal data) E (bind_var "data" (OVal data) st2)
          end
      end
  end.
Proof.
  unfold cell_summary. unfold mbind at 1, M_bind at 1.
  rewrite (glob_glob_summary E st).
  destruct (filter _ (listing E st)) as [|name names]; [reflexivity|].
  simpl. unfold mbind, M_bind, open_read, lift, ask, set_var. simpl.
  destruct (read_text _ _ _) as [e|text]; [reflexivity|].
  destruct (json_loads E text) as [e|data]; reflexivity.
Qed.

Lemma print_summary_missing_field (E : Env) (st : State) (d : gmap str pyval) :
  d !! lit "mean_input_tokens" = None ->
  print_summary (OVal (VDict d)) E st
  = (inl (KeyError (VStr (lit "mean_input_tokens"))), printed st concurrency_line).
Proof.
  intros H. unfold print_summary, print_field, mbind, M_bind, print, lift,
    subscript_key. simpl. rewrite H. reflexivity.
Qed.

(** C7: when no entry of the results directory is selected by
    [results/*summary.json] the summary cell raises [IndexError] after
    listing the directory, having opened and printed nothing.  An entry is
    selected when its name does not start with a dot and ends in
    "summary.json", which is what the pattern matcher of the cell accepts.
    When some entry is selected, the first one in listing order is opened
    and parsed,
    and the parsed value goes to the print statements unchecked: a value
    without the first field read raises [KeyError] only when that field is
    read, after the first line is out. *)
Theorem summary_lookup (E : Env) (st : State) :
  let st1 := logged st (Scandir results_dir) in
  ((forall name, name ∈ listing E st -> is_summary name = false) ->
   cell_summary E st = (inl IndexError, st1))
  /\ (forall before name after,
        listing E st = before ++ name :: after ->
        (forall x, x ∈ before -> is_summary x = false) ->
        is_summary name = true ->
        let path := results_dir ++ lit "/" ++ name in
        let st2 := logged st1 (Open path) in
        cell_summary E st =
        match read_text E (calls st1) path with
        | inl e => (inl e, st2)
        | inr text =>
            match json_loads E text with
            | inl e => (inl e, st2)
            | inr data =>
                print_summary (OVal data) E (bind_var "data" (OVal data) st2)
            end
        end)
  /\ (forall name, is_summary name = true <->
        (fnmatch (lit "*summary.json") name = true /\ ishidden name = false))
  /\ (forall st' d,
        d !! lit "mean_input_tokens" = None ->
        print_summary (OVal (VDict d)) E st'
        = (inl (KeyError (VStr (lit "mean_input_tokens"))),
           printed st' concurrency_line)).
Proof.
  intros st1. split; [|split; [|split]].
  - intros H. rewrite cell_summary_run.
    rewrite filter_none; [reflexivity|].
    intros x Hx. rewrite (H x Hx). discriminate.
  - intros before name after Hl Hb Hn. rewrite cell_summary_run.
    rewrite Hl, filter_app, filter_cons_True by exact Hn.
    rewrite filter_none by (intros x Hx; rewrite (Hb x Hx); discriminate).
    reflexivity.
  - exact is_summary_spec.
  - intros st' d. apply print_summary_missing_field.
Qed.

(** ** The printed summary *)

Lemma prints_from_print (pre : list str) (line : str) :
  keeps (prints_from pre) (print line).
Proof.
  intros E st H. unfold prints_from in *. simpl.
  apply prefix_app_r. exact H.
Qed.

#[export] Hint Resolve prints_from_print : keeps.

Lemma bind_print {B} (line : str) (k : unit -> M B) (E : Env) (st : State) :
  (print line ≫= k) E st = k tt E (printed st line).
Proof. reflexivity. Qed.

Lemma print_summary_first_line (E : Env) (st : State) (data : obj) :
  exists rest,
    stdout (print_summary data E st).2 = stdout st ++ concurrency_line :: rest.
Proof.
  assert (H : prints_from (stdout st ++ [concurrency_line])
                (print_summary data E st).2).
  { unfold print_summary. rewrite bind_print. cbv beta.
    match goal with |- prints_from ?pre (?m E _).2 =>
      assert (Hm : keeps (prints_from pre) m)
    end.
    { unfold print_field, print_ms, print_2f. keeps_cell. }
    apply Hm. unfold prints_from. reflexivity. }
  destruct H as [rest H]. exists rest.
  rewrite H, <- (assoc_L (++)). reflexivity.
Qed.

(** C10: the first line of the summary is the constant text
    "Concurrent requests: 25" for every parsed value, and it stays that
    when the benchmark command is given any other
    [--num-concurrent-requests]: the command line carries the flag value,
    the printed line does not. *)
Theorem concurrency_line_constant (E : Env) (st : State) (concurrency : N) (data : obj) :
  (exists rest,
     stdout (print_summary data E st).2
     = stdout st ++ lit "Concurrent requests: 25" :: rest)
  /\ let st1 := (cell_benchmark concurrency E st).2 in
     calls st1
     = calls st ++ [Shell (benchmark_argv (endpoint_arg (globals st)) concurrency)]
     /\ benchmark_argv (endpoint_arg (globals st)) concurrency !! 11%nat
        = Some (lit "--num-concurrent-requests")
     /\ benchmark_argv (endpoint_arg (globals st)) concurrency !! 12%nat
        = Some (dec_N concurrency)
     /\ (stdout (cell_summary E st1).2 = stdout st
         \/ exists rest,
              stdout (cell_summary E st1).2
              = stdout st ++ lit "Concurrent requests: 25" :: rest).
Proof.
  split; [apply print_summary_first_line|].
  intros st1. split; [reflexivity|]. split; [reflexivity|]. split; [reflexivity|].
  rewrite cell_summary_run. cbv zeta.
  destruct (filter _ _) as [|name names]; [left; reflexivity|].
  destruct (read_text _ _ _) as [e|text]; [left; reflexivity|].
  destruct (json_loads E text) as [e|d]; [left; reflexivity|].
  right.
  match goal with |- context [print_summary _ E ?s] =>
    destruct (print_summary_first_line E s (OVal d)) as [rest H]
  end.
  exists rest. exact H.
Qed.

(** ** The millisecond lines *)

Lemma div_half_even_near (n d : Z) :
  0 <= n -> 0 < d -> 2 * Z.abs (d * div_half_even n d - n) <= d.
Proof.
  intros Hn Hd. unfold div_half_even.
  pose proof (Z.div_mod n d ltac:(lia)) as Hdm.
  pose proof (Z.mod_pos_bound n d Hd) as Hr.
  set (q := n / d) in *. set (r := n mod d) in *.
  destruct (Z.compare_spec (2 * r) d) as [He|Hl|Hg].
  - destruct (Z.even q); nia.
  - nia.
  - nia.
Qed.

Lemma SF2Q_neg (m p : positive) : (SF2Q m (Zneg p) == Zpos m # (2 ^ p)%positive)%Q.
Proof.
  unfold SF2Q.
  change (Zneg p) with (- Zpos p). rewrite Qpower_opp.
  rewrite <- (Zpower_Qpower 2 (Zpos p)) by discriminate.
  rewrite <- Pos2Z.inj_pow.
  unfold Qeq, Qmult, Qinv, inject_Z. simpl. lia.
Qed.

Lemma SF2Q_nonneg (m : positive) (e : Z) :
  0 <= e -> (SF2Q m e == inject_Z (Zpos m * 2 ^ e))%Q.
Proof.
  intros He. unfold SF2Q. rewrite inject_Z_mult, (Zpower_Qpower 2 e He). reflexivity.
Qed.

Lemma centi_near (m : positive) (e : Z) :
  (Qabs ((centi m e # 100) - SF2Q m e) <= 1 # 200)%Q.
Proof.
  destruct e as [|p|p].
  - rewrite SF2Q_nonneg by lia. unfold centi.
    unfold Qle, Qabs, Qminus, Qplus, Qopp, inject_Z. simpl. lia.
  - rewrite SF2Q_nonneg by lia. unfold centi. rewrite <- Pos2Z.inj_pow.
    unfold Qle, Qabs, Qminus, Qplus, Qopp, inject_Z. simpl. lia.
  - rewrite SF2Q_neg. unfold centi.
    pose proof (div_half_even_near (100 * Zpos m) (2 ^ Zpos p) ltac:(lia) ltac:(lia)) as H.
    rewrite <- Pos2Z.inj_pow in *.
    set (c := div_half_even _ _) in *.
    unfold Qle, Qabs, Qminus, Qplus, Qopp. simpl. 
    rewrite Pos2Z.inj_mul. 
    replace (c * Z.pos (2 ^ p) + - Z.pos m * 100) with (Z.pos (2 ^ p) * c - 100 * Z.pos m) by ring.
    lia.
Qed.

(** The fractional part of [fixed2] has two digits. *)
Lemma two_digits_length (n : Z) :
  0 <= n < 100 -> length (two_digits n) = 2%nat.
Proof.
  intros Hn.
  assert (Hall : Forall (fun k => length (two_digits k) = 2%nat) (seqZ 0 100)).
  { apply (bool_decide_unpack _). vm_compute. exact I. }
  rewrite Forall_forall in Hall. apply Hall, elem_of_seqZ. lia.
Qed.

(** Hundredths of a magnitude are not negative. *)
Lemma centi_nonneg (m : positive) (e : Z) : 0 <= centi m e.
Proof.
  unfold centi. destruct e as [|p|p]; try lia.
  unfold div_half_even.
  pose proof (Z.div_pos (100 * Z.pos m) (2 ^ Z.pos p) ltac:(lia) ltac:(lia)).
  destruct (_ ?= _); [destruct (Z.even _)| |]; lia.
Qed.

Lemma print_ms_float (E : Env) (st : State) (label key unit_ : string)
    (d : gmap str pyval) (x : spec_float) :
  d !! lit key = Some (VFloat x) ->
  print_ms label (OVal (VDict d)) key unit_ E st
  = (inr tt,
     printed st (lit label ++ format_2f (SFmul prec emax x (float_of_Z 1000))
                 ++ lit unit_)).
Proof.
  intros H. unfold print_ms, mbind, M_bind, lift, subscript_key, print. simpl.
  rewrite H. reflexivity.
Qed.

(** Counterexample to C4 as stated: the record field 0.002675 (seconds) is
    2.675 ms, whose two-decimal rounding is 2.68; the cell multiplies and
    formats in binary64 and prints 2.67. *)
Lemma ttft_line_not_decimal_rounding :
  within_half_ulp 2675 1000000 (float_lit 2675 1000000)
  /\ print_ms ttft_label (OVal (VDict (summary_record (float_lit 2675 1000000))))
       ttft_key "ms" env_sample fresh
     = (inr tt, printed fresh (lit "Avg. First-Time-To-Token: 2.67ms"))
  /\ div_half_even (2675 * 1000 * 100) 1000000 = 268
  /\ fixed2 268 = lit "2.68".
Proof.
  split; [|split; [|split]].
  - vm_compute. split; [reflexivity | discriminate].
  - vm_compute. reflexivity.
  - reflexivity.
  - reflexivity.
Qed.

(** C4, amended: for the record field 1.30128 the line is
    "Avg. First-Time-To-Token: 1301.28ms".  In general, for a binary64 field
    [x] whose binary64 product with 1000 is finite, the printed number is
    that product rounded to hundredths (within half a hundredth of its exact
    value) and written with two decimals, not the rounding of the exact
    decimal; the inter-token latency line prints the same number for the
    same field value. *)
Theorem ttft_line_binary64 (E : Env) (st : State) (d : gmap str pyval) (x : spec_float) :
  d !! lit ttft_key = Some (VFloat x) ->
  (x = float_lit 130128 100000 ->
     print_ms ttft_label (OVal (VDict d)) ttft_key "ms" E st
     = (inr tt, printed st (lit "Avg. First-Time-To-Token: 1301.28ms")))
  /\ within_half_ulp 130128 100000 (float_lit 130128 100000)
  /\ (forall s m e,
        SFmul prec emax x (float_of_Z 1000) = S754_finite s m e ->
        exists c : Z,
          0 <= c
          /\ (Qabs ((c # 100) - SF2Q m e) <= 1 # 200)%Q
          /\ fixed2 c = dec_Z (c / 100) ++ lit "." ++ two_digits (c mod 100)
          /\ length (two_digits (c mod 100)) = 2%nat
          /\ print_ms ttft_label (OVal (VDict d)) ttft_key "ms" E st
             = (inr tt,
                printed st (lit ttft_label ++ sign_text s ++ fixed2 c ++ lit "ms"))
          /\ forall d' : gmap str pyval,
               d' !! lit latency_key = Some (VFloat x) ->
               print_ms latency_label (OVal (VDict d')) latency_key "ms/token" E st
               = (inr tt,
                  printed st (lit latency_label ++ sign_text s ++ fixed2 c
                              ++ lit "ms/token"))).
Proof.
  intros H. split; [|split].
  - intros ->. rewrite (print_ms_float E st _ _ _ d _ H). reflexivity.
  - vm_compute. split; [reflexivity | discriminate].
  - intros s m e Hmul. exists (centi m e).
    split; [apply centi_nonneg|]. split; [apply centi_near|].
    split; [reflexivity|].
    split; [apply two_digits_length, Z.mod_pos_bound; lia|]. split.
    + rewrite (print_ms_float E st _ _ _ d _ H), Hmul. simpl.
      rewrite <- (assoc_L (++)). reflexivity.
    + intros d' H'. rewrite (print_ms_float E st _ _ _ d' _ H'), Hmul. simpl.
      rewrite <- (assoc_L (++)). reflexivity.
Qed.

(** ** The inference request *)

Lemma request_merge (m : pyval) (p : gmap str pyval) :
  p !! lit "messages" = None ->
  exists d, request (OVal m) (OVal (VDict p)) = inr (VDict d)
    /\ d !! lit "messages" = Some m
    /\ forall k, k <> lit "messages" -> d !! k = p !! k.
Proof.
  intros Hp. eexists. split; [reflexivity|]. split.
  - rewrite lookup_union_r by exact Hp. apply lookup_insert_eq.
  - intros k Hk. rewrite lookup_union, lookup_insert_ne, lookup_empty by congruence.
    destruct (p !! k); reflexivity.
Qed.

Lemma cell_chat_request (E : Env) (st : State) (llm : obj) :
  holds "llm" llm st ->
  exists req,
    request (OVal messages) (OVal parameters) = inr req
    /\ calls ((cell_prompt ;; cell_chat) E st).2 = calls st ++ [Predict llm req].
Proof.
  unfold holds. intros Hllm. eexists. split; [reflexivity|].
  unfold cell_prompt, cell_chat, mbind, M_bind, set_var, get_var, lift, extern.
  simpl.
  repeat (first [ rewrite lookup_insert_eq
                | rewrite lookup_insert_ne by discriminate
                | rewrite Hllm ]; simpl).
  destruct (respond _ _ _) as [e|chat]; [reflexivity|]. simpl.
  destruct (extract chat); reflexivity.
Qed.

(** C8: the request sent to the endpoint is one JSON object whose keys are
    [messages], [model], [top_p], [temperature], [max_tokens] and [stop]:
    the message list as written (two role/content pairs with roles from
    system, user, assistant) next to the generation parameters, with no
    nesting under a parameters key.  Merging leaves any message list
    untouched as long as the parameters have no [messages] entry. *)
Theorem request_is_flat :
  exists d,
    request (OVal messages) (OVal parameters) = inr (VDict d)
    /\ dom d = list_to_set request_keys
    /\ d !! lit "messages" = Some messages
    /\ d !! lit "model" = Some (VStr (lit "meta-llama/Meta-Llama-3-70B-Instruct"))
    /\ d !! lit "top_p" = Some (VFloat (float_lit 6 10))
    /\ d !! lit "temperature" = Some (VFloat (float_lit 9 10))
    /\ d !! lit "max_tokens" = Some (VInt 512)
    /\ d !! lit "stop" = Some (VList [VStr (lit "<|eot_id|>")])
    /\ d !! lit "parameters" = None
    /\ within_half_ulp 6 10 (float_lit 6 10)
    /\ within_half_ulp 9 10 (float_lit 9 10)
    /\ (exists m1 m2, messages = VList [m1; m2] /\ is_message m1 /\ is_message m2)
    /\ (forall E st llm,
          holds "llm" llm st ->
          calls ((cell_prompt ;; cell_chat) E st).2
          = calls st ++ [Predict llm (VDict d)])
    /\ (forall m p,
          p !! lit "messages" = None ->
          exists d', request (OVal m) (OVal (VDict p)) = inr (VDict d')
            /\ d' !! lit "messages" = Some m
            /\ forall k, k <> lit "messages" -> d' !! k = p !! k).
Proof.
  eexists. split; [reflexivity|].
  split.
  { unfold parameters, dict_display. simpl.
    rewrite dom_union_L, !dom_insert_L, dom_empty_L. unfold request_keys. simpl.
    set_solver. }
  do 7 (split; [reflexivity|]).
  split; [vm_compute; split; [reflexivity | discriminate]|].
  split; [vm_compute; split; [reflexivity | discriminate]|].
  split.
  { eexists _, _. split; [reflexivity|].
    split; eexists _, _; (split; [reflexivity|]); unfold roles; simpl; set_solver. }
  split.
  { intros E st llm Hllm.
    destruct (cell_chat_request E st llm Hllm) as (req & Hreq & Hcalls).
    rewrite Hcalls. injection Hreq as <-. reflexivity. }
  exact request_merge.
Qed.

(** ** Instances on a sample deployment *)

(** The committed configuration on the sample deployment. *)
Lemma placeholder_token_rejected_witness :
  config (VStr placeholder) !! token_key = Some (VStr placeholder)
  /\ (exists st',
        cell_model (config (VStr placeholder)) env_sample fresh
        = (inl (AssertionError token_msg), st')
        /\ calls st' = calls fresh)
  /\ calls_in before_model (notebook (config (VStr placeholder)) 25 env_sample fresh).2.
Proof.
  split; [reflexivity|].
  pose proof (placeholder_token_rejected env_sample fresh
                (config (VStr placeholder)) 25 eq_refl) as (H1 & _ & H3 & _).
  split; [exact H1 | exact H3].
Defined.

(** A token that is not the placeholder. *)
Lemma example_token_ne : lit "hf_example" <> placeholder.
Proof. intros H. vm_compute in H. discriminate H. Defined.

(** The configuration with the token "hf_example". *)
Lemma config_documented_keys_witness :
  lit "hf_example" <> placeholder
  /\ dom (config (VStr (lit "hf_example"))) = list_to_set config_keys
  /\ size (config (VStr (lit "hf_example"))) = 7%nat
  /\ map_Forall (fun _ v => is_str v) (config (VStr (lit "hf_example"))).
Proof.
  split; [exact example_token_ne|].
  pose proof (config_documented_keys env_sample fresh (lit "hf_example") 25
                example_token_ne) as (H1 & H2 & H3 & _).
  split; [exact H1|]. split; [exact H2 | exact H3].
Defined.

(** The documented summary record. *)
Lemma ttft_line_binary64_witness :
  summary_record (float_lit 130128 100000) !! lit ttft_key
  = Some (VFloat (float_lit 130128 100000))
  /\ print_ms ttft_label (OVal (VDict (summary_record (float_lit 130128 100000))))
       ttft_key "ms" env_sample fresh
     = (inr tt, printed fresh (lit "Avg. First-Time-To-Token: 1301.28ms")).
Proof.
  split; [reflexivity|].
  pose proof (ttft_line_binary64 env_sample fresh
                (summary_record (float_lit 130128 100000))
                (float_lit 130128 100000) eq_refl) as (H & _).
  exact (H eq_refl).
Defined.

(** The summary cell on the sample deployment prints the six lines that
    the notebook records as its output. *)
Lemma summary_lookup_witness :
  listing env_sample fresh
  = [lit ".cache_summary.json"; lit "individual_responses.json"]
    ++ lit "endpoint_550_150_summary.json" :: [lit "older_summary.json"]
  /\ cell_summary env_sample fresh
     = print_summary (OVal sample_summary) env_sample
         (bind_var "data" (OVal sample_summary)
            (logged (logged fresh (Scandir results_dir))
               (Open (lit "results/endpoint_550_150_summary.json"))))
  /\ stdout (cell_summary env_sample fresh).2
     = [ lit "Concurrent requests: 25";
         lit "Avg. Input token length: 550";
         lit "Avg. Output token length: 150";
         lit "Avg. First-Time-To-Token: 1301.28ms";
         lit "Avg. Thorughput: 1116.25 tokens/sec";
         lit "Avg. Latency: 10.45ms/token" ].
Proof.
  split; [reflexivity|].
  pose proof (summary_lookup env_sample fresh) as (_ & H & _).
  specialize (H [lit ".cache_summary.json"; lit "individual_responses.json"]
                (lit "endpoint_550_150_summary.json") [lit "older_summary.json"]
                eq_refl).
  assert (Hb : forall x,
    x ∈ [lit ".cache_summary.json"; lit "individual_responses.json"] ->
    is_summary x = false).
  { intros x Hx. apply list_elem_of_In in Hx.
    destruct Hx as [<-|[<-|[]]]; reflexivity. }
  specialize (H Hb eq_refl).
  split; [exact H|].
  rewrite H. vm_compute. reflexivity.
Defined.
